(** * Women's Safety Risk Prediction: the Streamlit page of [app.py]

    A shallow embedding of [app.py].  The page is a script that Streamlit
    executes from top to bottom: once when the page is opened and once
    more after every interaction of the user.  The script deserialises a
    classifier, declares eleven input controls in the sidebar, assembles
    their values into the list [features] and, in the run triggered by the
    button, calls [model.predict] and prints the label and the inputs.

    The embedding has four layers:
    - Python values, exceptions and the classifier interface;
    - the input controls and the front end that stores what they accept;
    - the script itself, in a small monad with exceptions and a world
      (file system, the global [model], the rendered page, a call log);
    - the process: the sequence of script runs of one user session. *)

From Stdlib Require Import ZArith String List Bool Lia.
From Stdlib Require Import Floats.PrimFloat DecimalString.
From stdpp Require Import gmap strings list.

Local Open Scope Z_scope.

(** ** Python values *)

(** The values that flow through the page: [int] (unbounded), [float]
    (IEEE 754 binary64), [str] and [None]. *)
Inductive pyval : Type :=
| PInt (z : Z)
| PFloat (f : float)
| PStr (s : string)
| PNone.

(** [v == "..."] against a string literal: a value that is not a [str]
    is never equal to one. *)
Definition py_eq_str (v : pyval) (s : string) : bool :=
  match v with
  | PStr t => String.eqb t s
  | _ => false
  end.

(** A predicted class label, as stored in the array [predict] returns:
    a string or an integer class. *)
Inductive label : Type :=
| LStr (s : string)
| LInt (z : Z).

(** [str(y)], as used by the f-string of the success message. *)
Definition py_str (y : label) : string :=
  match y with
  | LStr s => s
  | LInt z => NilZero.string_of_int (Z.to_int z)
  end.

(** ** Exceptions *)

Inductive exn : Type :=
| FileNotFoundError (filename : string)
| UnpicklingError (msg : string)
| ValueError (msg : string)
| IndexError (msg : string)
| NameError (name : string).

(** [str(e)]: the message the user reads. *)
Definition exn_message (e : exn) : string :=
  match e with
  | FileNotFoundError p =>
      String.append "[Errno 2] No such file or directory: '" (String.append p "'")
  | UnpicklingError m => m
  | ValueError m => m
  | IndexError m => m
  | NameError n => String.append "name '" (String.append n "' is not defined")
  end.

(** [mentions p s]: the text [p] occurs in [s]. *)
Fixpoint mentions (p s : string) : bool :=
  String.prefix p s ||
  match s with
  | EmptyString => false
  | String _ s' => mentions p s'
  end.

(** ** The classifier *)

(** The page uses the deserialised object through one method only,
    [predict], which takes a collection of rows and either raises or
    returns an array of labels. *)
Record model : Type := Model {
  predict : list (list pyval) -> exn + list label
}.

(** A stub that answers the same label for every row. *)
Definition stub_model (y : label) : model :=
  {| predict := fun X => inr (map (fun _ => y) X) |}.

(** Modelled from the spec: the artifact [decision_tree_model.pkl] is not
    part of the sources.  The inference interface expects a collection of
    rows and gives one label per row; the model rejects a row whose number
    of features is not the number it was trained with. *)
Definition trained_classifier (n_features : nat) (decide : list pyval -> label)
  : model :=
  {| predict := fun X =>
       if forallb (fun row => Nat.eqb (length row) n_features) X
       then inr (map decide X)
       else inl (ValueError "feature-count mismatch") |}.

(** ** Input controls *)

(** [st.number_input] is an integer control when its bounds and step are
    [int]s and a float control when they are [float]s; [st.slider] with
    integer bounds moves in steps of one; [st.radio] offers a tuple of
    options.  A bound that is [None] is a bound the page does not set. *)
Inductive widget : Type :=
| IntInput (lbl : string) (min_value max_value : option Z) (step : Z)
    (format : option string)
| FloatInput (lbl : string) (min_value max_value : option float) (step : float)
    (format : option string)
| Slider (lbl : string) (min_value max_value : Z) (help : option string)
| Radio (lbl : string) (options : list string).

Definition widget_label (w : widget) : string :=
  match w with
  | IntInput l _ _ _ _ | FloatInput l _ _ _ _ | Slider l _ _ _ | Radio l _ => l
  end.

Definition at_least (lo : option Z) (z : Z) : bool :=
  match lo with Some m => m <=? z | None => true end.

Definition at_most (hi : option Z) (z : Z) : bool :=
  match hi with Some m => z <=? m | None => true end.

Definition fat_least (lo : option float) (f : float) : bool :=
  match lo with Some m => PrimFloat.leb m f | None => true end.

Definition fat_most (hi : option float) (f : float) : bool :=
  match hi with Some m => PrimFloat.leb f m | None => true end.

(** The control takes the entry [v]: the value has the control's type and
    lies between the minimum and maximum permitted values, both
    inclusive; a radio takes one of its options. *)
Definition accepts (w : widget) (v : pyval) : bool :=
  match w, v with
  | IntInput _ lo hi _ _, PInt z => at_least lo z && at_most hi z
  | FloatInput _ lo hi _ _, PFloat f => fat_least lo f && fat_most hi f
  | Slider _ lo hi _, PInt z => (lo <=? z) && (z <=? hi)
  | Radio _ opts, PStr s => existsb (String.eqb s) opts
  | _, _ => false
  end.

(** What the control returns before the user touched it: the minimum of a
    number input (zero without one) and of a slider, the first option of
    a radio. *)
Definition default_value (w : widget) : pyval :=
  match w with
  | IntInput _ lo _ _ _ => PInt (default 0 lo)
  | FloatInput _ lo _ _ _ => PFloat (default 0%float lo)
  | Slider _ lo _ _ => PInt lo
  | Radio _ opts => match opts with o :: _ => PStr o | [] => PNone end
  end.

(** The step [0.0001] of the coordinate inputs, as the binary64 value
    Python reads the literal as. *)
Definition step_0_0001 : float := 0x1.a36e2eb1c432dp-14%float.

(** The eleven controls of the sidebar, lines 50 to 84 of [app.py]. *)
Definition w_tower_id : widget :=
  IntInput "Tower ID" (Some 1) None 1 (Some "%d").
Definition w_latitude : widget :=
  FloatInput "Latitude" (Some (-90)%float) (Some 90%float)
    step_0_0001 (Some "%.4f").
Definition w_longitude : widget :=
  FloatInput "Longitude" (Some (-180)%float) (Some 180%float)
    step_0_0001 (Some "%.4f").
Definition w_signal_strength : widget :=
  IntInput "Signal Strength (dBm)" (Some (-120)) (Some 0) 1 None.
Definition w_male_count : widget :=
  IntInput "Male Count" (Some 0) None 1 None.
Definition w_female_count : widget :=
  IntInput "Female Count" (Some 0) None 1 None.
Definition w_crowd_density : widget :=
  IntInput "Crowd Density (people/m²)" (Some 0) None 1 None.
Definition w_hour : widget := Slider "Hour" 0 23 None.
Definition w_day_of_week : widget :=
  Slider "Day of Week" 0 6 (Some "0=Sunday, 6=Saturday").
Definition w_month : widget := Slider "Month" 1 12 None.
Definition w_is_weekend : widget := Radio "Is Weekend?" ["Yes"; "No"]%string.

Definition widgets : list widget :=
  [ w_tower_id; w_latitude; w_longitude; w_signal_strength; w_male_count;
    w_female_count; w_crowd_density; w_hour; w_day_of_week; w_month;
    w_is_weekend ].

(** ** The front end *)

(** What the browser holds between two runs of the script: the entry of
    every control the user has touched, keyed by the control's label. *)
Abbreviation session := (gmap string pyval).

Definition find_widget (l : string) : option widget :=
  List.find (fun w => String.eqb (widget_label w) l) widgets.

(** The user acts on the page: types or selects a value in a control, or
    presses a button. *)
Inductive user_event : Type :=
| Enter (lbl : string) (v : pyval)
| Click (lbl : string).

(** An entry the control rejects leaves the session as it was. *)
Definition enter (ss : session) (l : string) (v : pyval) : session :=
  match find_widget l with
  | Some w => if accepts w v then <[l := v]> ss else ss
  | None => ss
  end.

Definition front_end (ss : session) (ev : user_event) : session :=
  match ev with
  | Enter l v => enter ss l v
  | Click _ => ss
  end.

(** The button pressed by this event, if any: a button reads [True] only
    in the run its click triggers. *)
Definition clicked_of (ev : user_event) : option string :=
  match ev with
  | Click l => Some l
  | Enter _ _ => None
  end.

Definition session_after (evs : list user_event) : session :=
  fold_left front_end evs ∅.

(** The value a control hands to the script in a run. *)
Definition widget_value (ss : session) (w : widget) : pyval :=
  default (default_value w) (ss !! widget_label w).

(** ** The variables of the script, as functions of the session *)

Definition tower_id (ss : session) : pyval := widget_value ss w_tower_id.
Definition latitude (ss : session) : pyval := widget_value ss w_latitude.
Definition longitude (ss : session) : pyval := widget_value ss w_longitude.
Definition signal_strength (ss : session) : pyval :=
  widget_value ss w_signal_strength.
Definition male_count (ss : session) : pyval := widget_value ss w_male_count.
Definition female_count (ss : session) : pyval :=
  widget_value ss w_female_count.
Definition crowd_density (ss : session) : pyval :=
  widget_value ss w_crowd_density.
Definition hour (ss : session) : pyval := widget_value ss w_hour.
Definition day_of_week (ss : session) : pyval := widget_value ss w_day_of_week.
Definition month (ss : session) : pyval := widget_value ss w_month.

(** Line 87: [1 if is_weekend == "Yes" else 0]. *)
Definition weekend_flag (choice : pyval) : Z :=
  if py_eq_str choice "Yes" then 1 else 0.

Definition is_weekend (ss : session) : pyval :=
  PInt (weekend_flag (widget_value ss w_is_weekend)).

(** ** What a run leaves behind *)

(** The elements a run puts on the page, in the order of the calls. *)
Inductive element : Type :=
| PageConfig (page_title page_icon layout : string)
| Title (body : string)
| Write (body : string)
| Markdown (body : string)
| SidebarHeader (body : string)
| SidebarWidget (w : widget)
| SidebarButton (lbl : string)
| Success (body : string)
| DataFrame (columns : list string) (rows : list (list pyval))
| ExceptionBox (e : exn).

(** The calls that leave the page: the file system, the deserialiser and
    the classifier. *)
Inductive call : Type :=
| CallOpen (path mode : string)
| CallPickleLoad (result : exn + model)
| CallPredict (m : model) (X : list (list pyval)).

(** The world a run acts on: the files on disk, the module-level variable
    [model] (unbound until line 10 has run), the page and the call log. *)
Record world : Type := World {
  files : gmap string (list Byte.byte);
  model_var : option model;
  screen : list element;
  calls : list call
}.

Definition initial_world (fs : gmap string (list Byte.byte)) : world :=
  {| files := fs; model_var := None; screen := []; calls := [] |}.

(** ** The script monad: a world, and exceptions that stop the run *)

Definition M (A : Type) : Type := world -> (exn + A) * world.

Definition ret {A} (a : A) : M A := fun w => (inr a, w).

Definition bind {A B} (c : M A) (k : A -> M B) : M B :=
  fun w =>
    match c w with
    | (inr a, w') => k a w'
    | (inl e, w') => (inl e, w')
    end.

Definition raise {A} (e : exn) : M A := fun w => (inl e, w).

Declare Scope script_scope.
Delimit Scope script_scope with script.
Notation "x <- c ;; k" := (bind c (fun x => k))
  (at level 100, c at next level, right associativity) : script_scope.
Notation "c ;;; k" := (bind c (fun _ => k))
  (at level 100, right associativity) : script_scope.

Definition render (e : element) : M unit :=
  fun w => (inr tt, {| files := files w; model_var := model_var w;
                       screen := screen w ++ [e]; calls := calls w |}).

Definition log (c : call) : M unit :=
  fun w => (inr tt, {| files := files w; model_var := model_var w;
                       screen := screen w; calls := calls w ++ [c] |}).

Definition set_model (m : model) : M unit :=
  fun w => (inr tt, {| files := files w; model_var := Some m;
                       screen := screen w; calls := calls w |}).

Definition get_model : M model :=
  fun w =>
    match model_var w with
    | Some m => (inr m, w)
    | None => (inl (NameError "model"), w)
    end.

(** [open(path, 'rb')] followed by reading the file: a path that names no
    file raises [FileNotFoundError] with that path. *)
Definition open_rb (path : string) : M (list Byte.byte) :=
  fun w =>
    match files w !! path with
    | Some content => bind (log (CallOpen path "rb")) (fun _ => ret content) w
    | None =>
        bind (log (CallOpen path "rb"))
             (fun _ => raise (FileNotFoundError path)) w
    end.

(** A control in the sidebar: it is drawn and hands back its value. *)
Definition sidebar_input (ss : session) (w : widget) : M pyval :=
  bind (render (SidebarWidget w)) (fun _ => ret (widget_value ss w)).

(** [st.sidebar.button]: [True] only in the run its click triggered. *)
Definition sidebar_button (clicked : option string) (l : string) : M bool :=
  bind (render (SidebarButton l))
       (fun _ => ret (match clicked with
                      | Some c => String.eqb c l
                      | None => false
                      end)).

(** [prediction[0]]. *)
Definition first_label (ys : list label) : M label :=
  match ys with
  | y :: _ => ret y
  | [] => raise (IndexError "index 0 is out of bounds for axis 0 with size 0")
  end.

(** [pd.DataFrame(rows, columns=...)]: every row must have one value per
    column. *)
Definition data_frame (rows : list (list pyval)) (columns : list string)
  : M element :=
  if forallb (fun row => Nat.eqb (length row) (length columns)) rows
  then ret (DataFrame columns rows)
  else raise (ValueError "columns passed do not match the data").

(** [with st.spinner(text)]: the spinner is on the page only while the
    block runs and leaves nothing behind. *)
Definition spinner {A} (text : string) (body : M A) : M A := body.

(** ** The static texts of the page *)

(** Line 29: the description under the title. *)
Definition description_text : string :=
  "
    This app helps predict the safety risk in a location based on various factors such as:
    - Signal strength
    - Gender ratio (Male and Female count)
    - Crowd density
    - Time and date factors
    The prediction helps identify areas with potential safety concerns for women.
".

(** Line 39: how to use the page. *)
Definition instructions_text : string :=
  "
    **How to use the app:**
    1. Enter the required parameters such as tower ID, latitude, longitude, etc., in the sidebar.
    2. Click on the **Make Prediction** button to calculate the safety risk based on the inputs.
    3. View the prediction results and insights about the location’s safety.
".

(** Line 111: the legend printed under the echoed inputs. *)
Definition explanation_text : string :=
  "
    ### Explanation:
    - **Low risk**: A lower safety risk means the location is safer, based on the model’s prediction.
    - **High risk**: A higher risk means the location might be unsafe, requiring caution.
    ".

(** Line 118. *)
Definition model_overview_text : string :=
  "
    ## Model Overview
    The model used in this application is a **Decision Tree Classifier**. It analyzes various input features such as:
    - Signal strength, crowd density, gender ratio, and time-based factors.
    The model classifies locations into high or low safety risk categories.
".

(** Line 126. *)
Definition helpful_tips_text : string :=
  "
    ## Helpful Tips:
    - **Signal Strength**: Low signal strength may indicate a more dangerous area due to weak connectivity.
    - **Crowd Density**: Crowded areas can be more risky, depending on the time of day.
    - **Gender Ratio**: Significant imbalances in male-to-female ratio may indicate a potential risk.
".

(** Line 134. *)
Definition about_text : string :=
  "
    ## About This App
    This app was created to help assess the safety risks in various locations based on real-time data.
    It identifies areas where extra caution may be necessary.

    For inquiries or suggestions, you can reach us at:  
    [Contact Email](mailto:contact@womensafety.com)
".

(** ** The script *)

Definition model_path : string := "decision_tree_model.pkl".

(** Lines 103 to 107: the column names of the echoed table. *)
Definition columns : list string :=
  [ "Tower ID"; "Latitude"; "Longitude"; "Signal Strength (dBm)";
    "Male Count"; "Female Count"; "Crowd Density (people/m²)";
    "Hour"; "Day of Week"; "Month"; "Is Weekend?" ]%string.

(** Line 90, over the session the values are read from. *)
Definition features (ss : session) : list pyval :=
  [ tower_id ss; latitude ss; longitude ss; signal_strength ss;
    male_count ss; female_count ss; crowd_density ss; hour ss;
    day_of_week ss; month ss; is_weekend ss ].

Section Script.

(** [pickle.loads]: the deserialiser of the Python runtime. *)
Variable unpickle : list Byte.byte -> exn + model.

(** [pickle.load(file)]. *)
Definition pickle_load (content : list Byte.byte) : M model :=
  (log (CallPickleLoad (unpickle content)) ;;;
   match unpickle content with
   | inr m => ret m
   | inl e => raise e
   end)%script.

(** Lines 15 to 19.  The function reads the module-level [model] and
    passes the features as a batch of one row. *)
Definition make_prediction (features : list pyval) : M (list label) :=
  (m <- get_model ;;
   log (CallPredict m [features]) ;;;
   match predict m [features] with
   | inr prediction => ret prediction
   | inl e => raise e
   end)%script.

(** One run of [app.py], top to bottom.  [ss] is what the controls hold
    and [clicked] the button whose press triggered the run, if any. *)
Definition script (ss : session) (clicked : option string) : M unit :=
  (file <- open_rb model_path ;;
   m <- pickle_load file ;;
   set_model m ;;;
   render (PageConfig "Women's Safety Risk Prediction" "🚨" "wide") ;;;
   render (Title "🚨 Women's Safety Risk Prediction") ;;;
   render (Write description_text) ;;;
   render (Markdown instructions_text) ;;;
   render (SidebarHeader "Input Parameters") ;;;
   tower_id <- sidebar_input ss w_tower_id ;;
   latitude <- sidebar_input ss w_latitude ;;
   longitude <- sidebar_input ss w_longitude ;;
   signal_strength <- sidebar_input ss w_signal_strength ;;
   male_count <- sidebar_input ss w_male_count ;;
   female_count <- sidebar_input ss w_female_count ;;
   crowd_density <- sidebar_input ss w_crowd_density ;;
   hour <- sidebar_input ss w_hour ;;
   day_of_week <- sidebar_input ss w_day_of_week ;;
   month <- sidebar_input ss w_month ;;
   is_weekend <- sidebar_input ss w_is_weekend ;;
   let is_weekend := PInt (if py_eq_str is_weekend "Yes" then 1 else 0) in
   let features :=
     [ tower_id; latitude; longitude; signal_strength; male_count;
       female_count; crowd_density; hour; day_of_week; month; is_weekend ] in
   pressed <- sidebar_button clicked "Make Prediction" ;;
   (if pressed : bool then
      spinner "Making prediction..."
        (prediction <- make_prediction features ;;
         y <- first_label prediction ;;
         render (Success (String.append "Prediction: " (py_str y)))) ;;;
      render (Write "### Input Data:") ;;;
      input_data <- data_frame [features] columns ;;
      render input_data ;;;
      render (Write explanation_text)
    else ret tt) ;;;
   render (Markdown model_overview_text) ;;;
   render (Markdown helpful_tips_text) ;;;
   render (Markdown about_text))%script.

(** A run starts with a fresh module namespace and an empty page. *)
Definition run_script (fs : gmap string (list Byte.byte)) (ss : session)
  (clicked : option string) : (exn + unit) * world :=
  script ss clicked (initial_world fs).

(** What the user sees after a run: the page, and below it the exception
    that stopped the run, if one did. *)
Definition page (r : (exn + unit) * world) : list element :=
  match fst r with
  | inr _ => screen (snd r)
  | inl e => screen (snd r) ++ [ExceptionBox e]
  end.

(** ** The process *)

(** Streamlit runs the script again after every event, on the session the
    front end holds and on the files the previous run left. *)
Fixpoint serve (fs : gmap string (list Byte.byte)) (ss : session)
  (evs : list user_event) : list ((exn + unit) * world) :=
  match evs with
  | [] => []
  | ev :: evs' =>
      let ss' := front_end ss ev in
      let r := run_script fs ss' (clicked_of ev) in
      r :: serve (files (snd r)) ss' evs'
  end.

(** The runs of a process: the first when the page is opened, then one
    per event. *)
Definition process (fs : gmap string (list Byte.byte))
  (evs : list user_event) : list ((exn + unit) * world) :=
  let r0 := run_script fs ∅ None in
  r0 :: serve (files (snd r0)) ∅ evs.

End Script.

Definition is_load (c : call) : bool :=
  match c with CallPickleLoad _ => true | _ => false end.

Definition is_predict (c : call) : bool :=
  match c with CallPredict _ _ => true | _ => false end.

Definition is_result (e : element) : bool :=
  match e with Success _ | DataFrame _ _ => true | _ => false end.

(** All the calls of a process, in order. *)
Definition all_calls (rs : list ((exn + unit) * world)) : list call :=
  concat (map (fun r => calls (snd r)) rs).

Definition count_loads (rs : list ((exn + unit) * world)) : nat :=
  length (List.filter is_load (all_calls rs)).

(** ** The page, piece by piece *)

(** What every run that loaded the model draws before it looks at the
    button: the header and the sidebar. *)
Definition page_head : list element :=
  [ PageConfig "Women's Safety Risk Prediction" "🚨" "wide";
    Title "🚨 Women's Safety Risk Prediction";
    Write description_text;
    Markdown instructions_text;
    SidebarHeader "Input Parameters" ]
  ++ map SidebarWidget widgets
  ++ [ SidebarButton "Make Prediction" ].

(** What a prediction adds to the page. *)
Definition page_result (ss : session) (y : label) : list element :=
  [ Success (String.append "Prediction: " (py_str y));
    Write "### Input Data:";
    DataFrame columns [features ss];
    Write explanation_text ].

Definition page_tail : list element :=
  [ Markdown model_overview_text;
    Markdown helpful_tips_text;
    Markdown about_text ].

Definition the_button : option string := Some "Make Prediction"%string.

(** ** The invariant of the session *)

(** Every entry the session holds belongs to a control of the page and
    was accepted by it. *)
Definition session_ok (ss : session) : Prop :=
  forall l v, ss !! l = Some v ->
    exists w, find_widget l = Some w /\ accepts w v = true.

(** ** The declared domains *)

(** Modelled from the spec: the domains section 3 declares for the eleven
    fields: the tower identifier an integer, the latitude a float in
    [-90, 90], the longitude a float in [-180, 180], the signal strength
    an integer in [-120, 0], the three counts non-negative integers, the
    hour in 0..23, the day of the week in 0..6, the month in 1..12, the
    weekend flag 0 or 1. *)
Definition in_domain (row : list pyval) : bool :=
  match row with
  | [ PInt _; PFloat la; PFloat lo; PInt sg; PInt mc; PInt fc; PInt cd;
      PInt h; PInt d; PInt mo; PInt we ] =>
      PrimFloat.leb (-90)%float la && PrimFloat.leb la 90%float &&
      PrimFloat.leb (-180)%float lo && PrimFloat.leb lo 180%float &&
      (-120 <=? sg) && (sg <=? 0) &&
      (0 <=? mc) && (0 <=? fc) && (0 <=? cd) &&
      (0 <=? h) && (h <=? 23) && (0 <=? d) && (d <=? 6) &&
      (1 <=? mo) && (mo <=? 12) && ((we =? 0) || (we =? 1))
  | _ => false
  end.

(** ** The model across the runs of a process *)

Definition loads_of (r : (exn + unit) * world) : nat :=
  length (List.filter is_load (calls (snd r))).

(** In this run the model was deserialised once, [model] is bound to it
    at the end, every call of [predict] went to it, and the files are
    what they were. *)
Definition reads_one_handle (fs : gmap string (list Byte.byte)) (m : model)
  (r : (exn + unit) * world) : Prop :=
  files (snd r) = fs /\
  model_var (snd r) = Some m /\
  loads_of r = 1%nat /\
  forall m' X, In (CallPredict m' X) (calls (snd r)) -> m' = m.

(** ** Load failures *)

(** The model file is missing, or it is there and the deserialiser
    refuses it. *)
Definition load_fails (unpickle : list Byte.byte -> exn + model)
  (fs : gmap string (list Byte.byte)) : Prop :=
  fs !! model_path = None \/
  exists content e, fs !! model_path = Some content /\ unpickle content = inl e.

(** The run stopped with an exception before it drew anything, bound
    [model] or called [predict]. *)
Definition stopped_at_load (r : (exn + unit) * world) : Prop :=
  exists e,
    fst r = inl e /\
    screen (snd r) = [] /\
    model_var (snd r) = None /\
    List.filter is_predict (calls (snd r)) = [].

(** ** The boundary scenario *)

(** The entries of the boundary scenario, typed one after the other. *)
Definition boundary_events : list user_event :=
  [ Enter "Latitude" (PFloat (-90)%float);
    Enter "Longitude" (PFloat 180%float);
    Enter "Hour" (PInt 0);
    Enter "Day of Week" (PInt 6);
    Enter "Month" (PInt 12);
    Enter "Is Weekend?" (PStr "Yes") ].

(** ** A small runtime to run the page on *)

(** A deserialiser for the examples: a stream that opens with the
    protocol marker [0x80] gives a stub classifier, any other stream is
    refused the way CPython's [pickle] refuses one, by naming the
    offending byte and nothing else. *)
Definition demo_unpickle (content : list Byte.byte) : exn + model :=
  match content with
  | Byte.x80 :: _ => inr (stub_model (LStr "High Risk"))
  | _ => inl (UnpicklingError "invalid load key, 'x'.")
  end.

Definition demo_fs : gmap string (list Byte.byte) :=
  {[ model_path := [Byte.x80; Byte.x04] ]}.

Definition garbage_fs : gmap string (list Byte.byte) :=
  {[ model_path := [Byte.x78; Byte.x78] ]}.

(** ** Reading a history of events *)

(** The entry the event makes in the control [w], if it is an entry
    under the label of [w] that [w] accepts. *)
Definition accepted_by (w : widget) (ev : user_event) : option pyval :=
  match ev with
  | Enter l v =>
      if String.eqb l (widget_label w) && accepts w v then Some v else None
  | Click _ => None
  end.

(** The last entry of the history that the control [w] accepted. *)
Fixpoint last_accepted (w : widget) (evs : list user_event) : option pyval :=
  match evs with
  | [] => None
  | ev :: evs' =>
      match last_accepted w evs' with
      | Some v => Some v
      | None => accepted_by w ev
      end
  end.

(** The event is a press of the one button of the page. *)
Definition is_press (ev : user_event) : bool :=
  match clicked_of ev with
  | Some l => String.eqb l "Make Prediction"
  | None => false
  end.

Definition predicts_of (r : (exn + unit) * world) : nat :=
  length (List.filter is_predict (calls (snd r))).

Definition count_predicts (rs : list ((exn + unit) * world)) : nat :=
  length (List.filter is_predict (all_calls rs)).

(** The elements of the page the user can act on. *)
Definition is_control (e : element) : bool :=
  match e with
  | SidebarWidget _ | SidebarButton _ => true
  | _ => false
  end.

(** * Properties *)

(** Evaluating a run: unfold the script up to the next call whose answer
    is a hypothesis, rewrite with it, go on. *)
Ltac run_to_stuck :=
  unfold run_script, script, open_rb, pickle_load, make_prediction;
  cbv beta iota delta [bind initial_world files log ret raise].

Ltac run_on :=
  cbv - [widget_value py_str String.append predict lookup].

Ltac run_on_in H :=
  cbv - [widget_value py_str String.append predict lookup] in H.

Section RunLemmas.

Variable unpickle : list Byte.byte -> exn + model.
Variable fs : gmap string (list Byte.byte).
Variable ss : session.

Lemma run_missing (clicked : option string) :
  fs !! model_path = None ->
  run_script unpickle fs ss clicked =
  (inl (FileNotFoundError model_path),
   {| files := fs; model_var := None; screen := [];
      calls := [CallOpen model_path "rb"] |}).
Proof.
  intros Hfs. run_to_stuck. rewrite Hfs. reflexivity.
Qed.

Lemma run_undeserializable (clicked : option string) content e :
  fs !! model_path = Some content ->
  unpickle content = inl e ->
  run_script unpickle fs ss clicked =
  (inl e,
   {| files := fs; model_var := None; screen := [];
      calls := [CallOpen model_path "rb"; CallPickleLoad (inl e)] |}).
Proof.
  intros Hfs Hun. run_to_stuck. rewrite Hfs. run_on. rewrite Hun. reflexivity.
Qed.

Lemma run_idle (clicked : option string) content m :
  fs !! model_path = Some content ->
  unpickle content = inr m ->
  clicked <> the_button ->
  run_script unpickle fs ss clicked =
  (inr tt,
   {| files := fs; model_var := Some m; screen := page_head ++ page_tail;
      calls := [CallOpen model_path "rb"; CallPickleLoad (inr m)] |}).
Proof.
  intros Hfs Hun Hno. run_to_stuck. rewrite Hfs. run_on. rewrite Hun.
  assert (Hb : match clicked with
               | Some c => String.eqb c "Make Prediction"
               | None => false
               end = false).
  { destruct clicked as [c|]; [|reflexivity].
    destruct (String.eqb_spec c "Make Prediction") as [->|]; [|reflexivity].
    exfalso. apply Hno. reflexivity. }
  unfold sidebar_button. run_on. run_on_in Hb. rewrite Hb. reflexivity.
Qed.

Lemma run_predicts content m y ys :
  fs !! model_path = Some content ->
  unpickle content = inr m ->
  predict m [features ss] = inr (y :: ys) ->
  run_script unpickle fs ss the_button =
  (inr tt,
   {| files := fs; model_var := Some m;
      screen := page_head ++ page_result ss y ++ page_tail;
      calls := [CallOpen model_path "rb"; CallPickleLoad (inr m);
                CallPredict m [features ss]] |}).
Proof.
  intros Hfs Hun Hp. run_to_stuck. rewrite Hfs. run_on. rewrite Hun.
  run_on. run_on_in Hp. rewrite Hp. reflexivity.
Qed.

Lemma run_predict_raises content m e :
  fs !! model_path = Some content ->
  unpickle content = inr m ->
  predict m [features ss] = inl e ->
  run_script unpickle fs ss the_button =
  (inl e,
   {| files := fs; model_var := Some m; screen := page_head;
      calls := [CallOpen model_path "rb"; CallPickleLoad (inr m);
                CallPredict m [features ss]] |}).
Proof.
  intros Hfs Hun Hp. run_to_stuck. rewrite Hfs. run_on. rewrite Hun.
  run_on. run_on_in Hp. rewrite Hp. reflexivity.
Qed.

End RunLemmas.

(** ** The controls keep the session within their bounds *)

Lemma session_ok_empty : session_ok ∅.
Proof. intros l v H. rewrite lookup_empty in H. discriminate. Qed.

Lemma enter_ok (ss : session) l v : session_ok ss -> session_ok (enter ss l v).
Proof.
  intros Hok. unfold enter.
  destruct (find_widget l) as [w|] eqn:Hw; [|exact Hok].
  destruct (accepts w v) eqn:Ha; [|exact Hok].
  intros l' v' Hl'. destruct (decide (l = l')) as [<-|Hne].
  - rewrite lookup_insert_eq in Hl'. injection Hl' as <-. eauto.
  - rewrite lookup_insert_ne in Hl' by exact Hne. eauto.
Qed.

Lemma front_end_ok (ss : session) ev :
  session_ok ss -> session_ok (front_end ss ev).
Proof. destruct ev; simpl; [apply enter_ok | trivial]. Qed.

Lemma fold_front_end_ok evs : forall ss : session,
  session_ok ss -> session_ok (fold_left front_end evs ss).
Proof.
  induction evs as [|ev evs IH]; intros ss Hok; simpl; [exact Hok|].
  apply IH, front_end_ok, Hok.
Qed.

Lemma session_after_ok evs : session_ok (session_after evs).
Proof. apply fold_front_end_ok, session_ok_empty. Qed.

(** The labels tell the controls apart. *)
Lemma find_widget_self w :
  In w widgets -> find_widget (widget_label w) = Some w.
Proof.
  unfold widgets. simpl.
  intros H; repeat (destruct H as [<-|H]; [reflexivity|]); contradiction.
Qed.

Lemma default_accepted w : In w widgets -> accepts w (default_value w) = true.
Proof.
  unfold widgets. simpl.
  intros H; repeat (destruct H as [<-|H]; [reflexivity|]); contradiction.
Qed.

(** Whatever the user did, a control of the page hands the script a value
    it accepts. *)
Lemma widget_value_accepted (ss : session) w :
  session_ok ss -> In w widgets -> accepts w (widget_value ss w) = true.
Proof.
  intros Hok Hin. unfold widget_value.
  destruct (ss !! widget_label w) as [v|] eqn:Hv; simpl.
  - destruct (Hok _ _ Hv) as (w' & Hf & Ha).
    rewrite (find_widget_self w Hin) in Hf. injection Hf as <-. exact Ha.
  - apply default_accepted, Hin.
Qed.

(** A rejected entry changes nothing. *)
Lemma enter_rejected (ss : session) w v :
  In w widgets -> accepts w v = false -> enter ss (widget_label w) v = ss.
Proof.
  intros Hin Hr. unfold enter. rewrite (find_widget_self w Hin), Hr. reflexivity.
Qed.

(** An accepted entry is what the control hands to the next run, and the
    other controls keep their values. *)
Lemma enter_accepted (ss : session) w v :
  In w widgets -> accepts w v = true ->
  widget_value (enter ss (widget_label w) v) w = v.
Proof.
  intros Hin Ha. unfold enter, widget_value.
  rewrite (find_widget_self w Hin), Ha, lookup_insert_eq. reflexivity.
Qed.

Lemma enter_other (ss : session) l v w :
  widget_label w <> l -> widget_value (enter ss l v) w = widget_value ss w.
Proof.
  intros Hne. unfold enter, widget_value.
  destruct (find_widget l) as [w'|]; [|reflexivity].
  destruct (accepts w' v); [|reflexivity].
  rewrite lookup_insert_ne by congruence. reflexivity.
Qed.

(** What an integer control with a minimum lets through. *)
Lemma accepts_int_input l lo hi st fmt v :
  accepts (IntInput l lo hi st fmt) v = true ->
  exists z, v = PInt z /\ at_least lo z = true /\ at_most hi z = true.
Proof.
  destruct v as [z| | |]; simpl; try discriminate.
  intros H. apply andb_true_iff in H. eauto.
Qed.

Lemma accepts_slider l lo hi h v :
  accepts (Slider l lo hi h) v = true ->
  exists z, v = PInt z /\ lo <= z <= hi.
Proof.
  destruct v as [z| | |]; simpl; try discriminate.
  intros H. apply andb_true_iff in H. exists z. split; [reflexivity|lia].
Qed.

Lemma accepts_float_input l lo hi st fmt v :
  accepts (FloatInput l lo hi st fmt) v = true ->
  exists f, v = PFloat f /\ fat_least lo f = true /\ fat_most hi f = true.
Proof.
  destruct v as [|f| |]; simpl; try discriminate.
  intros H. apply andb_true_iff in H. eauto.
Qed.

Lemma accepts_radio l opts v :
  accepts (Radio l opts) v = true -> exists s, v = PStr s /\ In s opts.
Proof.
  destruct v as [| |s|]; simpl; try discriminate.
  intros H. apply existsb_exists in H as (o & Hin & Heq).
  apply String.eqb_eq in Heq. subst o. eauto.
Qed.

(** ** Every run, by cases *)

Section RunCases.

Variable unpickle : list Byte.byte -> exn + model.
Variable fs : gmap string (list Byte.byte).

Lemma run_predict_empty (ss : session) content m :
  fs !! model_path = Some content ->
  unpickle content = inr m ->
  predict m [features ss] = inr [] ->
  run_script unpickle fs ss the_button =
  (inl (IndexError "index 0 is out of bounds for axis 0 with size 0"),
   {| files := fs; model_var := Some m; screen := page_head;
      calls := [CallOpen model_path "rb"; CallPickleLoad (inr m);
                CallPredict m [features ss]] |}).
Proof.
  intros Hfs Hun Hp. run_to_stuck. rewrite Hfs. run_on. rewrite Hun.
  run_on. run_on_in Hp. rewrite Hp. reflexivity.
Qed.

(** The calls of a run that found and deserialised the model: the two of
    the load and, in a run the button triggered, one call of [predict] on
    the model just loaded, with the features as the only row. *)
Lemma run_loaded (ss : session) clicked content m :
  fs !! model_path = Some content ->
  unpickle content = inr m ->
  let r := run_script unpickle fs ss clicked in
  files (snd r) = fs /\ model_var (snd r) = Some m /\
  (calls (snd r) = [CallOpen model_path "rb"; CallPickleLoad (inr m)] \/
   clicked = the_button /\
   calls (snd r) = [CallOpen model_path "rb"; CallPickleLoad (inr m);
                    CallPredict m [features ss]]).
Proof.
  intros Hfs Hun. destruct (decide (clicked = the_button)) as [->|Hno].
  - destruct (predict m [features ss]) as [e|[|y ys]] eqn:Hp; cbv zeta.
    + rewrite (run_predict_raises _ _ _ _ _ _ Hfs Hun Hp). simpl. auto.
    + rewrite (run_predict_empty _ _ _ Hfs Hun Hp). simpl. auto.
    + rewrite (run_predicts _ _ _ _ _ _ _ Hfs Hun Hp). simpl. auto.
  - cbv zeta. rewrite (run_idle _ _ _ _ _ _ Hfs Hun Hno). simpl. auto.
Qed.

(** No run writes a file, whether the load succeeds or not. *)
Lemma run_keeps_files (ss : session) clicked :
  files (snd (run_script unpickle fs ss clicked)) = fs.
Proof.
  destruct (fs !! model_path) as [content|] eqn:Hfs.
  - destruct (unpickle content) as [e|m] eqn:Hun.
    + rewrite (run_undeserializable _ _ _ _ _ _ Hfs Hun). reflexivity.
    + apply (run_loaded ss clicked content m Hfs Hun).
  - rewrite (run_missing _ _ _ _ Hfs). reflexivity.
Qed.

(** A call of [predict], in any run at all, is the one the button
    triggers: on the features, as a batch of one row. *)
Lemma run_predict_call (ss : session) clicked m X :
  In (CallPredict m X) (calls (snd (run_script unpickle fs ss clicked))) ->
  clicked = the_button /\ X = [features ss] /\
  exists content, fs !! model_path = Some content /\ unpickle content = inr m.
Proof.
  destruct (fs !! model_path) as [content|] eqn:Hfs.
  - destruct (unpickle content) as [e|m'] eqn:Hun.
    + rewrite (run_undeserializable _ _ _ _ _ _ Hfs Hun). simpl.
      intros [H|[H|[]]]; discriminate.
    + destruct (run_loaded ss clicked content m' Hfs Hun) as (_ & _ & [Hc|[-> Hc]]);
        rewrite Hc; simpl.
      * intros [H|[H|[]]]; discriminate.
      * intros [H|[H|[H|[]]]]; try discriminate.
        injection H as <- <-. eauto.
  - rewrite (run_missing _ _ _ _ Hfs). simpl. intros [H|[]]; discriminate.
Qed.

End RunCases.

(** ** The feature vector *)

(** C1: in every run, a call of [predict] gets one row, and the row is
    the eleven inputs in the order tower_id, latitude, longitude,
    signal_strength, male_count, female_count, crowd_density, hour,
    day_of_week, month, is_weekend: the values of the controls of those
    names, the last one turned into the 0/1 flag. *)
Theorem feature_vector_order unpickle fs (ss : session) clicked m X :
  In (CallPredict m X) (calls (snd (run_script unpickle fs ss clicked))) ->
  X = [[ widget_value ss w_tower_id; widget_value ss w_latitude;
         widget_value ss w_longitude; widget_value ss w_signal_strength;
         widget_value ss w_male_count; widget_value ss w_female_count;
         widget_value ss w_crowd_density; widget_value ss w_hour;
         widget_value ss w_day_of_week; widget_value ss w_month;
         PInt (weekend_flag (widget_value ss w_is_weekend)) ]]
  /\ X = [[ tower_id ss; latitude ss; longitude ss; signal_strength ss;
            male_count ss; female_count ss; crowd_density ss; hour ss;
            day_of_week ss; month ss; is_weekend ss ]].
Proof.
  intros Hin. apply run_predict_call in Hin as (_ & -> & _).
  split; reflexivity.
Qed.

Lemma feature_vector_order_witness :
  let ss : session := session_after [Enter "Hour" (PInt 7)] in
  let m := stub_model (LStr "High Risk") in
  let X := [[ PInt 1; PFloat (-90)%float; PFloat (-180)%float; PInt (-120);
              PInt 0; PInt 0; PInt 0; PInt 7; PInt 0; PInt 1; PInt 1 ]] in
  In (CallPredict m X)
     (calls (snd (run_script demo_unpickle demo_fs ss the_button))) /\
  X = [[ tower_id ss; latitude ss; longitude ss; signal_strength ss;
         male_count ss; female_count ss; crowd_density ss; hour ss;
         day_of_week ss; month ss; is_weekend ss ]].
Proof.
  cbv zeta.
  assert (H : In (CallPredict (stub_model (LStr "High Risk"))
                    [[ PInt 1; PFloat (-90)%float; PFloat (-180)%float;
                       PInt (-120); PInt 0; PInt 0; PInt 0; PInt 7; PInt 0;
                       PInt 1; PInt 1 ]])
                 (calls (snd (run_script demo_unpickle demo_fs
                                (session_after [Enter "Hour" (PInt 7)])
                                the_button)))).
  { vm_compute. right. right. left. reflexivity. }
  split; [exact H|].
  exact (proj2 (feature_vector_order _ _ _ _ _ _ H)).
Defined.

(** C3: the weekend flag is 1 for the choice "Yes" and 0 for "No", it is
    0 or 1 whatever the choice, and it is the last element of the feature
    vector. *)
Theorem weekend_flag_binary :
  weekend_flag (PStr "Yes") = 1 /\
  weekend_flag (PStr "No") = 0 /\
  (forall choice, weekend_flag choice = 0 \/ weekend_flag choice = 1) /\
  (forall ss : session,
     last (features ss) = Some (PInt (weekend_flag (widget_value ss w_is_weekend)))) /\
  (forall ss : session,
     widget_value ss w_is_weekend = PStr "Yes" -> last (features ss) = Some (PInt 1)) /\
  (forall ss : session,
     widget_value ss w_is_weekend = PStr "No" -> last (features ss) = Some (PInt 0)).
Proof.
  repeat split.
  - intros choice. unfold weekend_flag. destruct (py_eq_str choice "Yes"); auto.
  - intros ss H. unfold features, is_weekend. rewrite H. reflexivity.
  - intros ss H. unfold features, is_weekend. rewrite H. reflexivity.
Qed.

(** ** Predicting *)

(** The labels of the columns are the labels of the controls, in the
    order of the controls. *)
Lemma columns_follow_widgets : columns = map widget_label widgets.
Proof. reflexivity. Qed.

(** C2: in a run triggered by the button, whatever model was loaded, it
    is that model's [predict] that is called, once, on the feature vector
    as a batch of one row, and the label it yields is the one printed:
    when the answer is an array that starts with [y], the run ends
    normally, the one success message of the page is "Prediction: "
    followed by [y], and the one table has the feature vector as its only
    row.  So with a stub that answers "High Risk" for every vector the
    message is exactly "Prediction: High Risk".  The table has eleven
    columns, named after the eleven controls in the order of the
    inputs. *)
Theorem loaded_model_prediction_rendered unpickle fs (ss : session) content m :
  fs !! model_path = Some content ->
  unpickle content = inr m ->
  let r := run_script unpickle fs ss the_button in
  List.filter is_predict (calls (snd r)) = [CallPredict m [features ss]] /\
  (forall y ys, predict m [features ss] = inr (y :: ys) ->
     fst r = inr tt /\
     List.filter is_result (page r) =
       [ Success (String.append "Prediction: " (py_str y));
         DataFrame columns [features ss] ]) /\
  ((forall row, predict m [row] = inr [LStr "High Risk"]) ->
     fst r = inr tt /\
     List.filter is_result (page r) =
       [Success "Prediction: High Risk"; DataFrame columns [features ss]]) /\
  length columns = 11%nat /\
  length (features ss) = 11%nat /\
  columns = map widget_label widgets.
Proof.
  intros Hfs Hun r. subst r.
  destruct (predict m [features ss]) as [e|[|y ys]] eqn:Hp.
  - rewrite (run_predict_raises _ _ _ _ _ _ Hfs Hun Hp).
    split; [reflexivity|]. split; [intros y ys H; discriminate|].
    split; [|repeat split].
    intros Hstub. rewrite (Hstub (features ss)) in Hp. discriminate.
  - rewrite (run_predict_empty _ _ _ _ _ Hfs Hun Hp).
    split; [reflexivity|]. split; [intros y ys H; discriminate|].
    split; [|repeat split].
    intros Hstub. rewrite (Hstub (features ss)) in Hp. discriminate.
  - rewrite (run_predicts _ _ _ _ _ _ _ Hfs Hun Hp).
    split; [reflexivity|]. split; [|split; [|repeat split]].
    + intros y' ys' H. injection H as <- <-. split; reflexivity.
    + intros Hstub. rewrite (Hstub (features ss)) in Hp.
      injection Hp as <- <-. split; reflexivity.
Qed.

Lemma loaded_model_prediction_rendered_witness :
  let r := run_script demo_unpickle demo_fs ∅ the_button in
  let m := stub_model (LStr "High Risk") in
  demo_fs !! model_path = Some [Byte.x80; Byte.x04] /\
  demo_unpickle [Byte.x80; Byte.x04] = inr m /\
  (forall row, predict m [row] = inr [LStr "High Risk"]) /\
  List.filter is_predict (calls (snd r)) = [CallPredict m [features ∅]] /\
  fst r = inr tt /\
  List.filter is_result (page r) =
    [Success "Prediction: High Risk"; DataFrame columns [features ∅]].
Proof.
  cbv zeta.
  assert (Hfs : demo_fs !! model_path = Some [Byte.x80; Byte.x04])
    by (vm_compute; reflexivity).
  assert (Hun : demo_unpickle [Byte.x80; Byte.x04]
                = inr (stub_model (LStr "High Risk"))) by reflexivity.
  assert (Hstub : forall row, predict (stub_model (LStr "High Risk")) [row]
                              = inr [LStr "High Risk"])
    by (intros row; reflexivity).
  split; [exact Hfs|]. split; [exact Hun|]. split; [exact Hstub|].
  pose proof (loaded_model_prediction_rendered demo_unpickle demo_fs ∅ _ _
                Hfs Hun) as H.
  cbv zeta in H.
  split; [exact (proj1 H)|].
  exact (proj1 (proj2 (proj2 H)) Hstub).
Defined.

(** C4: with a classifier trained on eleven features, for inputs within
    the domains of section 3 the run triggered by the button ends without
    an exception, calls [predict] once on the one-row batch and gets
    exactly one label, the one printed. *)
Theorem prediction_returns_one_label unpickle fs (ss : session) content decide :
  in_domain (features ss) = true ->
  fs !! model_path = Some content ->
  unpickle content = inr (trained_classifier 11 decide) ->
  let m := trained_classifier 11 decide in
  let r := run_script unpickle fs ss the_button in
  fst r = inr tt /\
  predict m [features ss] = inr [decide (features ss)] /\
  List.filter is_predict (calls (snd r)) = [CallPredict m [features ss]] /\
  List.filter is_result (page r) =
    [ Success (String.append "Prediction: " (py_str (decide (features ss))));
      DataFrame columns [features ss] ].
Proof.
  intros _ Hfs Hun m r.
  assert (Hp : predict m [features ss] = inr [decide (features ss)])
    by reflexivity.
  subst r. rewrite (run_predicts _ _ _ _ _ _ _ Hfs Hun Hp).
  repeat split.
Qed.

Lemma prediction_returns_one_label_witness :
  let decide := fun row : list pyval =>
    match row with PInt 1 :: _ => LStr "Low Risk" | _ => LStr "High Risk" end in
  let m := trained_classifier 11 decide in
  let r := run_script (fun _ => inr m) demo_fs ∅ the_button in
  in_domain (features ∅) = true /\
  fst r = inr tt /\
  List.filter is_result (page r) =
    [ Success "Prediction: Low Risk"; DataFrame columns [features ∅] ].
Proof.
  cbv zeta.
  assert (Hd : in_domain (features ∅) = true) by (vm_compute; reflexivity).
  assert (Hfs : demo_fs !! model_path = Some [Byte.x80; Byte.x04])
    by (vm_compute; reflexivity).
  split; [exact Hd|].
  pose proof (prediction_returns_one_label
                (fun _ => inr (trained_classifier 11 (fun row : list pyval =>
                   match row with
                   | PInt 1 :: _ => LStr "Low Risk"
                   | _ => LStr "High Risk"
                   end)))
                demo_fs ∅ _ _ Hd Hfs eq_refl) as H.
  cbv zeta in H. split; [exact (proj1 H)|].
  exact (proj2 (proj2 (proj2 H))).
Defined.

(** The controls enforce the domains of section 3: whatever the user
    did, the features of the session are within them. *)
Lemma features_in_domain (ss : session) :
  session_ok ss -> in_domain (features ss) = true.
Proof.
  intros Hok.
  assert (Hin : forall w, In w widgets -> accepts w (widget_value ss w) = true)
    by (intros w Hw; apply widget_value_accepted; assumption).
  unfold features, tower_id, latitude, longitude, signal_strength, male_count,
    female_count, crowd_density, hour, day_of_week, month, is_weekend.
  destruct (accepts_int_input _ _ _ _ _ _ (Hin w_tower_id ltac:(simpl; auto 12)))
    as (z1 & -> & _ & _).
  destruct (accepts_float_input _ _ _ _ _ _ (Hin w_latitude ltac:(simpl; auto 12)))
    as (f2 & -> & L2 & U2).
  destruct (accepts_float_input _ _ _ _ _ _ (Hin w_longitude ltac:(simpl; auto 12)))
    as (f3 & -> & L3 & U3).
  destruct (accepts_int_input _ _ _ _ _ _ (Hin w_signal_strength ltac:(simpl; auto 12)))
    as (z4 & -> & L4 & U4).
  destruct (accepts_int_input _ _ _ _ _ _ (Hin w_male_count ltac:(simpl; auto 12)))
    as (z5 & -> & L5 & _).
  destruct (accepts_int_input _ _ _ _ _ _ (Hin w_female_count ltac:(simpl; auto 12)))
    as (z6 & -> & L6 & _).
  destruct (accepts_int_input _ _ _ _ _ _ (Hin w_crowd_density ltac:(simpl; auto 12)))
    as (z7 & -> & L7 & _).
  destruct (accepts_slider _ _ _ _ _ (Hin w_hour ltac:(simpl; auto 12)))
    as (z8 & -> & B8).
  destruct (accepts_slider _ _ _ _ _ (Hin w_day_of_week ltac:(simpl; auto 12)))
    as (z9 & -> & B9).
  destruct (accepts_slider _ _ _ _ _ (Hin w_month ltac:(simpl; auto 12)))
    as (z10 & -> & B10).
  simpl in L2, U2, L3, U3, L4, U4, L5, L6, L7.
  unfold in_domain. rewrite L2, U2, L3, U3, L4, U4, L5, L6, L7. simpl.
  assert (Hw : forall c, (weekend_flag c =? 0) || (weekend_flag c =? 1) = true)
    by (intros c; unfold weekend_flag; destruct (py_eq_str c "Yes"); reflexivity).
  rewrite Hw.
  repeat (apply andb_true_intro; split); lia.
Qed.

Lemma reachable_in_domain evs : in_domain (features (session_after evs)) = true.
Proof. apply features_in_domain, session_after_ok. Qed.

(** ** Failures *)

(** C6: when [predict] raises, the run stops with that very exception,
    which the page shows below what was drawn so far; [predict] was
    called once, and the page holds neither a success message nor a
    table. *)
Theorem inference_failure_surfaced unpickle fs (ss : session) content m e :
  fs !! model_path = Some content ->
  unpickle content = inr m ->
  predict m [features ss] = inl e ->
  let r := run_script unpickle fs ss the_button in
  fst r = inl e /\
  page r = page_head ++ [ExceptionBox e] /\
  last (page r) = Some (ExceptionBox e) /\
  List.filter is_predict (calls (snd r)) = [CallPredict m [features ss]] /\
  List.filter is_result (page r) = [].
Proof.
  intros Hfs Hun Hp r. subst r.
  rewrite (run_predict_raises _ _ _ _ _ _ Hfs Hun Hp).
  repeat split.
Qed.

Lemma inference_failure_surfaced_witness :
  let m := trained_classifier 3 (fun _ => LStr "High Risk") in
  let r := run_script (fun _ => inr m) demo_fs ∅ the_button in
  predict m [features ∅] = inl (ValueError "feature-count mismatch") /\
  fst r = inl (ValueError "feature-count mismatch") /\
  last (page r) = Some (ExceptionBox (ValueError "feature-count mismatch")).
Proof.
  cbv zeta.
  assert (Hp : predict (trained_classifier 3 (fun _ => LStr "High Risk"))
                 [features ∅] = inl (ValueError "feature-count mismatch"))
    by reflexivity.
  assert (Hfs : demo_fs !! model_path = Some [Byte.x80; Byte.x04])
    by (vm_compute; reflexivity).
  split; [exact Hp|].
  pose proof (inference_failure_surfaced
                (fun _ => inr (trained_classifier 3 (fun _ => LStr "High Risk")))
                demo_fs ∅ _ _ _ Hfs eq_refl Hp) as H.
  cbv zeta in H. split; [exact (proj1 H)|].
  exact (proj1 (proj2 (proj2 H))).
Defined.

(** C5, as stated, fails: a file that is there but does not deserialise
    stops the run with the deserialiser's own message, which does not
    state the path. *)
Lemma load_failure_message_omits_path :
  let r := run_script demo_unpickle garbage_fs ∅ None in
  garbage_fs !! model_path = Some [Byte.x78; Byte.x78] /\
  fst r = inl (UnpicklingError "invalid load key, 'x'.") /\
  mentions model_path (exn_message (UnpicklingError "invalid load key, 'x'.")) = false /\
  mentions model_path (exn_message (FileNotFoundError model_path)) = true.
Proof. vm_compute. repeat split. Qed.

Lemma run_stops_at_load unpickle fs (ss : session) clicked :
  load_fails unpickle fs ->
  stopped_at_load (run_script unpickle fs ss clicked).
Proof.
  intros [Hfs|(content & e & Hfs & Hun)].
  - rewrite (run_missing _ _ _ _ Hfs). eexists. repeat split.
  - rewrite (run_undeserializable _ _ _ _ _ _ Hfs Hun). eexists. repeat split.
Qed.

(** As long as the file stays as it is, no later run gets further. *)
Lemma serve_stops_at_load unpickle fs evs :
  load_fails unpickle fs ->
  forall ss : session, Forall stopped_at_load (serve unpickle fs ss evs).
Proof.
  intros Hf. induction evs as [|ev evs IH]; intros ss; simpl.
  - constructor.
  - rewrite run_keeps_files. constructor; [|apply IH].
    apply run_stops_at_load, Hf.
Qed.

(** C5, amended: when the model file is missing or does not deserialise,
    the run stops with the exception of [open] or of [pickle.load] before
    it draws anything or calls [predict], and [model] stays unbound; the
    page shows that exception alone, and so does every later run of the
    process: no prediction is ever served.  For a missing file the
    exception is [FileNotFoundError] and its message states the path; for
    a file that does not deserialise it is whatever the deserialiser
    raised. *)
Theorem load_failure_is_fatal unpickle fs (ss : session) clicked :
  load_fails unpickle fs ->
  let r := run_script unpickle fs ss clicked in
  (exists e,
    fst r = inl e /\
    screen (snd r) = [] /\
    page r = [ExceptionBox e] /\
    model_var (snd r) = None /\
    List.filter is_predict (calls (snd r)) = [] /\
    (fs !! model_path = None ->
       e = FileNotFoundError model_path /\
       mentions model_path (exn_message e) = true) /\
    (forall content, fs !! model_path = Some content -> unpickle content = inl e))
  /\ forall evs, Forall stopped_at_load (process unpickle fs evs).
Proof.
  intros Hf r; subst r. split.
  - destruct Hf as [Hfs|(content & e & Hfs & Hun)].
    + rewrite (run_missing _ _ _ _ Hfs).
      exists (FileNotFoundError model_path). repeat split.
      intros content Hc. congruence.
    + rewrite (run_undeserializable _ _ _ _ _ _ Hfs Hun).
      exists e. repeat split; congruence.
  - intros evs. unfold process. cbv zeta. rewrite run_keeps_files.
    constructor; [apply run_stops_at_load | apply serve_stops_at_load];
      exact Hf.
Qed.

Lemma load_failure_is_fatal_witness :
  let r := run_script demo_unpickle ∅ ∅ the_button in
  load_fails demo_unpickle ∅ /\
  (exists e, fst r = inl e /\ page r = [ExceptionBox e] /\
             mentions model_path (exn_message e) = true) /\
  Forall stopped_at_load (process demo_unpickle ∅ [Click "Make Prediction"]).
Proof.
  cbv zeta.
  assert (Hfs : (∅ : gmap string (list Byte.byte)) !! model_path = None)
    by reflexivity.
  assert (Hf : load_fails demo_unpickle ∅) by (left; exact Hfs).
  split; [exact Hf|].
  destruct (load_failure_is_fatal demo_unpickle ∅ ∅ the_button Hf)
    as [(e & H1 & _ & H3 & _ & _ & H6 & _) Hp].
  split; [|apply Hp].
  exists e. split; [exact H1|]. split; [exact H3|]. exact (proj2 (H6 Hfs)).
Defined.

(** ** The model is loaded in every run *)

Lemma count_loads_cons r rs :
  count_loads (r :: rs) = (loads_of r + count_loads rs)%nat.
Proof.
  unfold count_loads, all_calls, loads_of. simpl.
  rewrite List.filter_app, List.length_app. reflexivity.
Qed.

Section Process.

Variable unpickle : list Byte.byte -> exn + model.
Variable fs : gmap string (list Byte.byte).
Variables (content : list Byte.byte) (m : model).
Hypothesis file_there : fs !! model_path = Some content.
Hypothesis file_loads : unpickle content = inr m.

Lemma run_reads_one_handle (ss : session) clicked :
  reads_one_handle fs m (run_script unpickle fs ss clicked).
Proof.
  destruct (run_loaded unpickle fs ss clicked content m file_there file_loads)
    as (Hf & Hm & Hc).
  repeat split; try assumption.
  - unfold loads_of. destruct Hc as [Hc|[_ Hc]]; rewrite Hc; reflexivity.
  - intros m' X Hin. apply run_predict_call in Hin as (_ & _ & c & Hc1 & Hc2).
    congruence.
Qed.

Lemma serve_reads_one_handle evs : forall ss : session,
  Forall (reads_one_handle fs m) (serve unpickle fs ss evs) /\
  count_loads (serve unpickle fs ss evs) = length evs.
Proof.
  induction evs as [|ev evs IH]; intros ss; simpl.
  - split; [constructor | reflexivity].
  - rewrite run_keeps_files. destruct (IH (front_end ss ev)) as [IH1 IH2].
    split.
    + constructor; [apply run_reads_one_handle | exact IH1].
    + rewrite count_loads_cons, IH2.
      destruct (run_reads_one_handle (front_end ss ev) (clicked_of ev))
        as (_ & _ & -> & _).
      reflexivity.
Qed.

End Process.

(** One run per event. *)
Lemma serve_length unpickle evs : forall fs (ss : session),
  length (serve unpickle fs ss evs) = length evs.
Proof.
  induction evs as [|ev evs IH]; intros fs ss; simpl; [reflexivity|].
  f_equal. apply IH.
Qed.

(** C9, as stated, fails: a process in which the user presses the button
    twice deserialises the model three times, once in each of its runs. *)
Lemma model_reloaded_every_run :
  let rs := process demo_unpickle demo_fs
              [Click "Make Prediction"; Click "Make Prediction"] in
  length rs = 3%nat /\
  count_loads rs = 3%nat /\
  count_loads rs <> 1%nat /\
  length (List.filter is_predict (all_calls rs)) = 2%nat.
Proof. vm_compute. repeat split. discriminate. Qed.

(** C9, amended: the script deserialises the model once in every run, so
    a process of [n] events, which runs the script [n + 1] times, loads
    it [n + 1] times.  No run mutates the model or writes a file: over a
    model file that deserialises to [m], every run ends with [model]
    bound to [m], makes its call of [predict], if any, on [m], and leaves
    the files as they were. *)
Theorem model_loaded_once_per_run unpickle fs content m evs :
  fs !! model_path = Some content ->
  unpickle content = inr m ->
  let rs := process unpickle fs evs in
  length rs = S (length evs) /\
  count_loads rs = S (length evs) /\
  Forall (reads_one_handle fs m) rs.
Proof.
  intros Hfs Hun rs. subst rs. unfold process. cbv zeta.
  rewrite run_keeps_files.
  destruct (serve_reads_one_handle unpickle fs content m Hfs Hun evs ∅)
    as [H1 H2].
  pose proof (run_reads_one_handle unpickle fs content m Hfs Hun ∅ None) as H0.
  split; [|split].
  - simpl. f_equal. apply serve_length.
  - rewrite count_loads_cons, H2. destruct H0 as (_ & _ & -> & _). reflexivity.
  - constructor; assumption.
Qed.

Lemma model_loaded_once_per_run_witness :
  let rs := process demo_unpickle demo_fs
              [Enter "Hour" (PInt 7); Click "Make Prediction"] in
  demo_fs !! model_path = Some [Byte.x80; Byte.x04] /\
  count_loads rs = 3%nat /\
  Forall (reads_one_handle demo_fs (stub_model (LStr "High Risk"))) rs.
Proof.
  cbv zeta.
  assert (Hfs : demo_fs !! model_path = Some [Byte.x80; Byte.x04])
    by (vm_compute; reflexivity).
  split; [exact Hfs|].
  pose proof (model_loaded_once_per_run demo_unpickle demo_fs _ _
                [Enter "Hour" (PInt 7); Click "Make Prediction"] Hfs eq_refl)
    as H.
  cbv zeta in H. exact (proj2 H).
Defined.

(** ** The bounds of the controls *)

(** C7: the signal-strength control takes -120 and 0 and refuses -121
    and 1; whatever it takes is an integer of [-120, 0]; a refused entry
    leaves the session as it was, so the signal strength of every feature
    vector lies in [-120, 0]. *)
Theorem signal_strength_bounds :
  accepts w_signal_strength (PInt (-120)) = true /\
  accepts w_signal_strength (PInt 0) = true /\
  accepts w_signal_strength (PInt (-121)) = false /\
  accepts w_signal_strength (PInt 1) = false /\
  (forall v, accepts w_signal_strength v = true ->
     exists z, v = PInt z /\ -120 <= z <= 0) /\
  (forall (ss : session) v, accepts w_signal_strength v = false ->
     enter ss "Signal Strength (dBm)" v = ss) /\
  (forall (ss : session) v, accepts w_signal_strength v = true ->
     signal_strength (enter ss "Signal Strength (dBm)" v) = v) /\
  (forall evs, exists z,
     features (session_after evs) !! 3%nat = Some (PInt z) /\ -120 <= z <= 0).
Proof.
  assert (Hin : In w_signal_strength widgets) by (simpl; auto 12).
  assert (Hacc : forall v, accepts w_signal_strength v = true ->
                 exists z, v = PInt z /\ -120 <= z <= 0).
  { intros v Hv. apply accepts_int_input in Hv as (z & -> & Hlo & Hhi).
    simpl in Hlo, Hhi. exists z. split; [reflexivity|lia]. }
  repeat split; try reflexivity.
  - exact Hacc.
  - intros ss v Hv. exact (enter_rejected ss w_signal_strength v Hin Hv).
  - intros ss v Hv. exact (enter_accepted ss w_signal_strength v Hin Hv).
  - intros evs.
    destruct (Hacc (signal_strength (session_after evs))) as (z & Hz & Hb).
    { apply widget_value_accepted; [apply session_after_ok | exact Hin]. }
    exists z. split; [|exact Hb].
    transitivity (Some (signal_strength (session_after evs)));
      [reflexivity | rewrite Hz; reflexivity].
Qed.

(** C10: the Tower ID control has the minimum 1: it refuses 0 and every
    negative identifier, what it takes is an integer that is at least 1,
    and the first element of every feature vector is a positive
    integer. *)
Theorem tower_id_positive :
  accepts w_tower_id (PInt 1) = true /\
  accepts w_tower_id (PInt 0) = false /\
  (forall z, z <= 0 -> accepts w_tower_id (PInt z) = false) /\
  (forall v, accepts w_tower_id v = true -> exists z, v = PInt z /\ 1 <= z) /\
  (forall (ss : session) z, z <= 0 -> enter ss "Tower ID" (PInt z) = ss) /\
  (forall evs, exists z,
     head (features (session_after evs)) = Some (PInt z) /\ 1 <= z).
Proof.
  assert (Hin : In w_tower_id widgets) by (simpl; auto 12).
  assert (Hrej : forall z, z <= 0 -> accepts w_tower_id (PInt z) = false).
  { intros z Hz. simpl. rewrite andb_true_r. apply Z.leb_gt. lia. }
  assert (Hacc : forall v, accepts w_tower_id v = true ->
                 exists z, v = PInt z /\ 1 <= z).
  { intros v Hv. apply accepts_int_input in Hv as (z & -> & Hlo & _).
    simpl in Hlo. exists z. split; [reflexivity|lia]. }
  repeat split; try reflexivity.
  - exact Hrej.
  - exact Hacc.
  - intros ss z Hz. exact (enter_rejected ss w_tower_id _ Hin (Hrej z Hz)).
  - intros evs.
    destruct (Hacc (tower_id (session_after evs))) as (z & Hz & Hb).
    { apply widget_value_accepted; [apply session_after_ok | exact Hin]. }
    exists z. split; [|exact Hb].
    transitivity (Some (tower_id (session_after evs)));
      [reflexivity | rewrite Hz; reflexivity].
Qed.

(** C8: latitude -90.0, longitude 180.0, hour 0, day of week 6, month 12
    and the choice "Yes" are each taken by their control; typed into any
    session, they are the values the next run reads, and the last element
    of its feature vector is 1. *)
Theorem boundary_inputs_accepted (ss0 : session) :
  accepts w_latitude (PFloat (-90)%float) = true /\
  accepts w_longitude (PFloat 180%float) = true /\
  accepts w_hour (PInt 0) = true /\
  accepts w_day_of_week (PInt 6) = true /\
  accepts w_month (PInt 12) = true /\
  accepts w_is_weekend (PStr "Yes") = true /\
  let ss := fold_left front_end boundary_events ss0 in
  latitude ss = PFloat (-90)%float /\
  longitude ss = PFloat 180%float /\
  hour ss = PInt 0 /\
  day_of_week ss = PInt 6 /\
  month ss = PInt 12 /\
  widget_value ss w_is_weekend = PStr "Yes" /\
  last (features ss) = Some (PInt 1).
Proof.
  repeat (split; [reflexivity|]).
  cbv zeta. unfold boundary_events. cbn [fold_left front_end].
  unfold latitude, longitude, hour, day_of_week, month, features, is_weekend.
  cbn [last].
  rewrite (enter_accepted _ w_is_weekend) by (first [simpl; auto 12 | reflexivity]).
  rewrite !(enter_other _ "Is Weekend?") by discriminate.
  rewrite (enter_accepted _ w_month) by (first [simpl; auto 12 | reflexivity]).
  rewrite !(enter_other _ "Month") by discriminate.
  rewrite (enter_accepted _ w_day_of_week) by (first [simpl; auto 12 | reflexivity]).
  rewrite !(enter_other _ "Day of Week") by discriminate.
  rewrite (enter_accepted _ w_hour) by (first [simpl; auto 12 | reflexivity]).
  rewrite !(enter_other _ "Hour") by discriminate.
  rewrite (enter_accepted _ w_longitude) by (first [simpl; auto 12 | reflexivity]).
  rewrite !(enter_other _ "Longitude") by discriminate.
  rewrite (enter_accepted _ w_latitude) by (first [simpl; auto 12 | reflexivity]).
  repeat split.
Qed.

(** * More of the page *)

(** ** The calls of a run, exactly *)

Lemma run_calls_loaded unpickle fs (ss : session) clicked content m :
  fs !! model_path = Some content ->
  unpickle content = inr m ->
  calls (snd (run_script unpickle fs ss clicked)) =
  [CallOpen model_path "rb"; CallPickleLoad (inr m)]
  ++ (if decide (clicked = the_button)
      then [CallPredict m [features ss]] else []).
Proof.
  intros Hfs Hun. destruct (decide (clicked = the_button)) as [->|Hno].
  - destruct (predict m [features ss]) as [e|[|y ys]] eqn:Hp.
    + rewrite (run_predict_raises _ _ _ _ _ _ Hfs Hun Hp). reflexivity.
    + rewrite (run_predict_empty _ _ _ _ _ Hfs Hun Hp). reflexivity.
    + rewrite (run_predicts _ _ _ _ _ _ _ Hfs Hun Hp). reflexivity.
  - rewrite (run_idle _ _ _ _ _ _ Hfs Hun Hno). reflexivity.
Qed.

Lemma is_press_clicked ev :
  is_press ev = if decide (clicked_of ev = the_button) then true else false.
Proof.
  destruct ev as [l v|l]; unfold is_press; simpl.
  - destruct (decide (None = the_button)); [discriminate|reflexivity].
  - destruct (decide (Some l = the_button)) as [Heq|Hneq].
    + injection Heq as ->. reflexivity.
    + destruct (String.eqb_spec l "Make Prediction") as [->|Hne];
        [|reflexivity].
      exfalso. apply Hneq. reflexivity.
Qed.

Lemma count_predicts_cons r rs :
  count_predicts (r :: rs) = (predicts_of r + count_predicts rs)%nat.
Proof.
  unfold count_predicts, all_calls, predicts_of. simpl.
  rewrite List.filter_app, List.length_app. reflexivity.
Qed.

Lemma predicts_of_run unpickle fs (ss : session) clicked content m :
  fs !! model_path = Some content ->
  unpickle content = inr m ->
  predicts_of (run_script unpickle fs ss clicked) =
  if decide (clicked = the_button) then 1%nat else 0%nat.
Proof.
  intros Hfs Hun. unfold predicts_of.
  rewrite (run_calls_loaded _ _ _ _ _ _ Hfs Hun).
  destruct (decide (clicked = the_button)); reflexivity.
Qed.

Lemma serve_count_predicts unpickle fs content m evs :
  fs !! model_path = Some content ->
  unpickle content = inr m ->
  forall ss : session,
    count_predicts (serve unpickle fs ss evs) = length (List.filter is_press evs).
Proof.
  intros Hfs Hun. induction evs as [|ev evs IH]; intros ss; simpl.
  - reflexivity.
  - rewrite run_keeps_files, count_predicts_cons, IH.
    rewrite (predicts_of_run _ _ _ _ _ _ Hfs Hun), is_press_clicked.
    destruct (decide (clicked_of ev = the_button)); reflexivity.
Qed.

(** ** Runs that are not a prediction *)

(** X1: a run that the button did not trigger (the page was opened, a
    value was edited) ends normally without calling [predict]; its page
    is the header, the sidebar and the three closing texts, with no
    success message and no table. *)
Theorem idle_run_predicts_nothing unpickle fs (ss : session) clicked content m :
  fs !! model_path = Some content ->
  unpickle content = inr m ->
  clicked <> the_button ->
  let r := run_script unpickle fs ss clicked in
  fst r = inr tt /\
  page r = page_head ++ page_tail /\
  List.filter is_predict (calls (snd r)) = [] /\
  List.filter is_result (page r) = [].
Proof.
  intros Hfs Hun Hno r. subst r.
  rewrite (run_idle _ _ _ _ _ _ Hfs Hun Hno). repeat split.
Qed.

Lemma idle_run_predicts_nothing_witness :
  let r := run_script demo_unpickle demo_fs
             (session_after [Enter "Month" (PInt 3)]) None in
  demo_fs !! model_path = Some [Byte.x80; Byte.x04] /\
  None <> the_button /\
  fst r = inr tt /\
  List.filter is_predict (calls (snd r)) = [].
Proof.
  cbv zeta.
  assert (Hfs : demo_fs !! model_path = Some [Byte.x80; Byte.x04])
    by (vm_compute; reflexivity).
  assert (Hno : None <> the_button) by discriminate.
  split; [exact Hfs|]. split; [exact Hno|].
  pose proof (idle_run_predicts_nothing demo_unpickle demo_fs
                (session_after [Enter "Month" (PInt 3)]) None _ _
                Hfs eq_refl Hno) as H.
  cbv zeta in H. split; [exact (proj1 H)|].
  exact (proj1 (proj2 (proj2 H))).
Defined.

(** ** What a prediction prints *)

(** X2: whatever the classifier, when [predict] returns a non-empty array
    the success message is "Prediction: " followed by the first label
    (the others are not looked at), the run ends normally, and the one
    table of the page echoes, under the eleven column names, exactly the
    row that was passed to [predict]. *)
Theorem first_label_is_rendered unpickle fs (ss : session) content m y ys :
  fs !! model_path = Some content ->
  unpickle content = inr m ->
  predict m [features ss] = inr (y :: ys) ->
  let r := run_script unpickle fs ss the_button in
  fst r = inr tt /\
  page r = page_head ++ page_result ss y ++ page_tail /\
  List.filter is_result (page r) =
    [ Success (String.append "Prediction: " (py_str y));
      DataFrame columns [features ss] ] /\
  List.filter is_predict (calls (snd r)) = [CallPredict m [features ss]].
Proof.
  intros Hfs Hun Hp r. subst r.
  rewrite (run_predicts _ _ _ _ _ _ _ Hfs Hun Hp). repeat split.
Qed.

Lemma first_label_is_rendered_witness :
  let m := {| predict := fun _ => inr [LInt 0; LInt 1] |} in
  let r := run_script (fun _ => inr m) demo_fs ∅ the_button in
  predict m [features ∅] = inr [LInt 0; LInt 1] /\
  List.filter is_result (page r) =
    [ Success "Prediction: 0"; DataFrame columns [features ∅] ].
Proof.
  cbv zeta.
  assert (Hfs : demo_fs !! model_path = Some [Byte.x80; Byte.x04])
    by (vm_compute; reflexivity).
  split; [reflexivity|].
  pose proof (first_label_is_rendered
                (fun _ => inr {| predict := fun _ => inr [LInt 0; LInt 1] |})
                demo_fs ∅ _ _ (LInt 0) [LInt 1] Hfs eq_refl eq_refl) as H.
  cbv zeta in H. exact (proj1 (proj2 (proj2 H))).
Defined.

(** X3: when [predict] returns an empty array, [prediction[0]] raises
    [IndexError]: the run stops there, the page shows the exception below
    the sidebar, and neither a success message nor the table is drawn. *)
Theorem empty_prediction_raises unpickle fs (ss : session) content m :
  fs !! model_path = Some content ->
  unpickle content = inr m ->
  predict m [features ss] = inr [] ->
  let r := run_script unpickle fs ss the_button in
  (exists msg, fst r = inl (IndexError msg) /\
               page r = page_head ++ [ExceptionBox (IndexError msg)]) /\
  List.filter is_result (page r) = [] /\
  List.filter is_predict (calls (snd r)) = [CallPredict m [features ss]].
Proof.
  intros Hfs Hun Hp r. subst r.
  rewrite (run_predict_empty _ _ _ _ _ Hfs Hun Hp).
  split; [eexists; split; reflexivity | split; reflexivity].
Qed.

Lemma empty_prediction_raises_witness :
  let m := {| predict := fun _ => inr [] |} in
  let r := run_script (fun _ => inr m) demo_fs ∅ the_button in
  predict m [features ∅] = inr [] /\
  List.filter is_result (page r) = [].
Proof.
  cbv zeta.
  assert (Hfs : demo_fs !! model_path = Some [Byte.x80; Byte.x04])
    by (vm_compute; reflexivity).
  split; [reflexivity|].
  pose proof (empty_prediction_raises
                (fun _ => inr {| predict := fun _ => inr [] |})
                demo_fs ∅ _ _ Hfs eq_refl eq_refl) as H.
  cbv zeta in H. exact (proj1 (proj2 H)).
Defined.

(** ** The sidebar *)

(** X4: once the model is loaded, every run draws the header and the
    whole sidebar before anything else, whatever the button and whatever
    [predict] does: the controls of the page are the eleven inputs in the
    order of their declaration followed by the button, each once, also on
    a page that ends with an exception. *)
Theorem controls_always_drawn unpickle fs (ss : session) clicked content m :
  fs !! model_path = Some content ->
  unpickle content = inr m ->
  let r := run_script unpickle fs ss clicked in
  (exists rest, page r = page_head ++ rest) /\
  List.filter is_control (page r) =
    map SidebarWidget widgets ++ [SidebarButton "Make Prediction"].
Proof.
  intros Hfs Hun r. subst r.
  destruct (decide (clicked = the_button)) as [->|Hno].
  - destruct (predict m [features ss]) as [e|[|y ys]] eqn:Hp.
    + rewrite (run_predict_raises _ _ _ _ _ _ Hfs Hun Hp).
      split; [eexists; reflexivity | reflexivity].
    + rewrite (run_predict_empty _ _ _ _ _ Hfs Hun Hp).
      split; [eexists; reflexivity | reflexivity].
    + rewrite (run_predicts _ _ _ _ _ _ _ Hfs Hun Hp).
      split; [eexists; reflexivity | reflexivity].
  - rewrite (run_idle _ _ _ _ _ _ Hfs Hun Hno).
    split; [eexists; reflexivity | reflexivity].
Qed.

Lemma controls_always_drawn_witness :
  let m := trained_classifier 3 (fun _ => LStr "High Risk") in
  let r := run_script (fun _ => inr m) demo_fs ∅ the_button in
  demo_fs !! model_path = Some [Byte.x80; Byte.x04] /\
  fst r = inl (ValueError "feature-count mismatch") /\
  List.filter is_control (page r) =
    map SidebarWidget widgets ++ [SidebarButton "Make Prediction"].
Proof.
  cbv zeta.
  assert (Hfs : demo_fs !! model_path = Some [Byte.x80; Byte.x04])
    by (vm_compute; reflexivity).
  split; [exact Hfs|]. split; [vm_compute; reflexivity|].
  exact (proj2 (controls_always_drawn
                  (fun _ => inr (trained_classifier 3 (fun _ => LStr "High Risk")))
                  demo_fs ∅ the_button _ _ Hfs eq_refl)).
Defined.

(** ** What the controls let through *)

(** The labels tell the controls apart: two controls of the page with the
    same label are the same control. *)
Lemma widget_label_inj w w' :
  In w widgets -> In w' widgets -> widget_label w = widget_label w' -> w = w'.
Proof.
  intros Hw Hw' Heq.
  pose proof (find_widget_self w Hw) as H1.
  pose proof (find_widget_self w' Hw') as H2.
  rewrite Heq in H1. congruence.
Qed.

(** X5: whatever the user typed, selected or pressed, the feature vector
    of the next run has the shape and the bounds the controls declare: an
    integer tower id of at least 1, a float latitude in [-90, 90], a
    float longitude in [-180, 180], an integer signal strength in
    [-120, 0], three non-negative integer counts, an hour in 0..23, a day
    in 0..6, a month in 1..12 and a flag that is 0 or 1. *)
Theorem features_within_bounds evs :
  exists t la lo sg mc fc cd h d mo we,
    features (session_after evs) =
      [ PInt t; PFloat la; PFloat lo; PInt sg; PInt mc; PInt fc; PInt cd;
        PInt h; PInt d; PInt mo; PInt we ] /\
    1 <= t /\
    PrimFloat.leb (-90)%float la = true /\ PrimFloat.leb la 90%float = true /\
    PrimFloat.leb (-180)%float lo = true /\ PrimFloat.leb lo 180%float = true /\
    -120 <= sg <= 0 /\
    0 <= mc /\ 0 <= fc /\ 0 <= cd /\
    0 <= h <= 23 /\ 0 <= d <= 6 /\ 1 <= mo <= 12 /\
    (we = 0 \/ we = 1).
Proof.
  set (ss := session_after evs).
  assert (Hin : forall w, In w widgets -> accepts w (widget_value ss w) = true)
    by (intros w Hw; apply widget_value_accepted;
        [apply session_after_ok | assumption]).
  unfold features, tower_id, latitude, longitude, signal_strength, male_count,
    female_count, crowd_density, hour, day_of_week, month, is_weekend.
  destruct (accepts_int_input _ _ _ _ _ _ (Hin w_tower_id ltac:(simpl; auto 12)))
    as (z1 & -> & L1 & _).
  destruct (accepts_float_input _ _ _ _ _ _ (Hin w_latitude ltac:(simpl; auto 12)))
    as (f2 & -> & L2 & U2).
  destruct (accepts_float_input _ _ _ _ _ _ (Hin w_longitude ltac:(simpl; auto 12)))
    as (f3 & -> & L3 & U3).
  destruct (accepts_int_input _ _ _ _ _ _ (Hin w_signal_strength ltac:(simpl; auto 12)))
    as (z4 & -> & L4 & U4).
  destruct (accepts_int_input _ _ _ _ _ _ (Hin w_male_count ltac:(simpl; auto 12)))
    as (z5 & -> & L5 & _).
  destruct (accepts_int_input _ _ _ _ _ _ (Hin w_female_count ltac:(simpl; auto 12)))
    as (z6 & -> & L6 & _).
  destruct (accepts_int_input _ _ _ _ _ _ (Hin w_crowd_density ltac:(simpl; auto 12)))
    as (z7 & -> & L7 & _).
  destruct (accepts_slider _ _ _ _ _ (Hin w_hour ltac:(simpl; auto 12)))
    as (z8 & -> & B8).
  destruct (accepts_slider _ _ _ _ _ (Hin w_day_of_week ltac:(simpl; auto 12)))
    as (z9 & -> & B9).
  destruct (accepts_slider _ _ _ _ _ (Hin w_month ltac:(simpl; auto 12)))
    as (z10 & -> & B10).
  simpl in L1, L2, U2, L3, U3, L4, U4, L5, L6, L7.
  exists z1, f2, f3, z4, z5, z6, z7, z8, z9, z10,
    (weekend_flag (widget_value ss w_is_weekend)).
  split; [reflexivity|].
  repeat (split; [first [assumption | lia]|]).
  unfold weekend_flag.
  destruct (py_eq_str (widget_value ss w_is_weekend) "Yes"); auto.
Qed.

(** X6: whatever the user did, the radio holds "Yes" or "No", and the
    flag is 1 exactly for "Yes" and 0 exactly for "No": the else branch
    of the conversion is taken by the choice "No" alone. *)
Theorem weekend_choice_two_valued evs :
  let ss := session_after evs in
  (widget_value ss w_is_weekend = PStr "Yes" /\ is_weekend ss = PInt 1) \/
  (widget_value ss w_is_weekend = PStr "No" /\ is_weekend ss = PInt 0).
Proof.
  cbv zeta. unfold is_weekend.
  destruct (accepts_radio _ _ _
              (widget_value_accepted (session_after evs) w_is_weekend
                 (session_after_ok evs) ltac:(simpl; auto 12)))
    as (s & -> & [<-|[<-|[]]]); [left | right]; split; reflexivity.
Qed.

(** X7: the page does not compare the weekend choice with the day of the
    week: every day 0..6 can be entered together with either choice, and
    the flag follows the choice alone. *)
Theorem weekend_flag_ignores_day (ss0 : session) d choice :
  0 <= d <= 6 ->
  choice = "Yes"%string \/ choice = "No"%string ->
  let ss := enter (enter ss0 "Day of Week" (PInt d)) "Is Weekend?" (PStr choice) in
  day_of_week ss = PInt d /\
  is_weekend ss = PInt (if String.eqb choice "Yes" then 1 else 0).
Proof.
  intros Hd Hc. cbv zeta.
  assert (Ha1 : accepts w_day_of_week (PInt d) = true).
  { simpl. apply andb_true_intro. split; apply Z.leb_le; lia. }
  assert (Ha2 : accepts w_is_weekend (PStr choice) = true)
    by (destruct Hc as [->| ->]; reflexivity).
  split.
  - unfold day_of_week.
    rewrite (enter_other _ "Is Weekend?") by discriminate.
    exact (enter_accepted ss0 w_day_of_week _ ltac:(simpl; auto 12) Ha1).
  - unfold is_weekend.
    rewrite (enter_accepted _ w_is_weekend _ ltac:(simpl; auto 12) Ha2).
    reflexivity.
Qed.

Lemma weekend_flag_ignores_day_witness :
  let ss := enter (enter ∅ "Day of Week" (PInt 6)) "Is Weekend?" (PStr "No") in
  0 <= 6 <= 6 /\
  day_of_week ss = PInt 6 /\ is_weekend ss = PInt 0.
Proof.
  cbv zeta.
  assert (Hd : 0 <= 6 <= 6) by lia.
  split; [exact Hd|].
  exact (weekend_flag_ignores_day ∅ 6 "No" Hd (or_intror eq_refl)).
Defined.

(** ** Editing the inputs *)

(** X9: an entry in one control of the page never changes what another
    control holds: after it, the entered control holds the entry if it
    accepted it and what it held before if it did not, and every other
    control holds what it held before. *)
Theorem edit_changes_one_control (ss : session) w w' v :
  In w widgets -> In w' widgets -> w <> w' ->
  widget_value (enter ss (widget_label w) v) w' = widget_value ss w' /\
  widget_value (enter ss (widget_label w) v) w =
    (if accepts w v then v else widget_value ss w).
Proof.
  intros Hw Hw' Hne. split.
  - apply enter_other. intros Heq. apply Hne.
    symmetry. exact (widget_label_inj w' w Hw' Hw Heq).
  - destruct (accepts w v) eqn:Ha.
    + exact (enter_accepted ss w v Hw Ha).
    + rewrite (enter_rejected ss w v Hw Ha). reflexivity.
Qed.

Lemma edit_changes_one_control_witness :
  let ss : session := session_after [Enter "Month" (PInt 7)] in
  In w_hour widgets /\ In w_month widgets /\ w_hour <> w_month /\
  widget_value (enter ss "Hour" (PInt 23)) w_month = PInt 7 /\
  widget_value (enter ss "Hour" (PInt 23)) w_hour = PInt 23.
Proof.
  cbv zeta.
  assert (H1 : In w_hour widgets) by (simpl; auto 12).
  assert (H2 : In w_month widgets) by (simpl; auto 12).
  assert (H3 : w_hour <> w_month) by discriminate.
  split; [exact H1|]. split; [exact H2|]. split; [exact H3|].
  exact (edit_changes_one_control
           (session_after [Enter "Month" (PInt 7)]) w_hour w_month (PInt 23)
           H1 H2 H3).
Defined.

Lemma widget_value_empty w : widget_value ∅ w = default_value w.
Proof. unfold widget_value. rewrite lookup_empty. reflexivity. Qed.

(** One event: the control [w] of the page shows the entry if the entry
    is its own and it accepts it, and what it showed before otherwise. *)
Lemma front_end_value (ss : session) w ev :
  In w widgets ->
  widget_value (front_end ss ev) w =
  default (widget_value ss w) (accepted_by w ev).
Proof.
  intros Hw. destruct ev as [l v|l]; simpl; [|reflexivity].
  destruct (String.eqb_spec l (widget_label w)) as [->|Hne]; simpl.
  - destruct (accepts w v) eqn:Ha; simpl.
    + exact (enter_accepted ss w v Hw Ha).
    + rewrite (enter_rejected ss w v Hw Ha). reflexivity.
  - apply enter_other. congruence.
Qed.

Lemma fold_front_end_value w evs : In w widgets -> forall ss : session,
  widget_value (fold_left front_end evs ss) w =
  default (widget_value ss w) (last_accepted w evs).
Proof.
  intros Hw. induction evs as [|ev evs IH]; intros ss; simpl; [reflexivity|].
  rewrite IH. destruct (last_accepted w evs) as [v|]; simpl; [reflexivity|].
  apply front_end_value, Hw.
Qed.

(** X10: after any history of events, each of the eleven controls hands
    the script the last entry of the history that was typed into that
    very control and that its bounds accept, and its default (the
    minimum, or "Yes") when there is none: entries in the other controls,
    entries out of its bounds and presses of the button do not count. *)
Theorem control_shows_last_accepted evs w :
  In w widgets ->
  widget_value (session_after evs) w =
  default (default_value w) (last_accepted w evs).
Proof.
  intros Hw. unfold session_after.
  rewrite (fold_front_end_value w evs Hw), widget_value_empty. reflexivity.
Qed.

Lemma control_shows_last_accepted_witness :
  let evs := [ Enter "Hour" (PInt 7); Enter "Month" (PInt 3);
               Enter "Hour" (PInt 24); Click "Make Prediction" ] in
  In w_hour widgets /\
  last_accepted w_hour evs = Some (PInt 7) /\
  widget_value (session_after evs) w_hour = PInt 7.
Proof.
  cbv zeta.
  assert (Hw : In w_hour widgets) by (simpl; auto 12).
  split; [exact Hw|]. split; [reflexivity|].
  exact (control_shows_last_accepted
           [ Enter "Hour" (PInt 7); Enter "Month" (PInt 3);
             Enter "Hour" (PInt 24); Click "Make Prediction" ]
           w_hour Hw).
Defined.

Lemma reentered_value (ss : session) w w' :
  session_ok ss -> In w widgets -> In w' widgets ->
  widget_value (enter ss (widget_label w) (widget_value ss w)) w'
  = widget_value ss w'.
Proof.
  intros Hok Hw Hw'.
  destruct (String.eqb_spec (widget_label w') (widget_label w)) as [Heq|Hne].
  - rewrite (widget_label_inj w' w Hw' Hw Heq).
    apply enter_accepted; [exact Hw|].
    apply widget_value_accepted; assumption.
  - apply enter_other. exact Hne.
Qed.

(** X11: typing into a control the value it already shows changes no
    feature: for a session the front end can hold, the feature vector
    after the entry is the feature vector before it. *)
Theorem reentering_keeps_features evs w :
  In w widgets ->
  let ss := session_after evs in
  features (enter ss (widget_label w) (widget_value ss w)) = features ss.
Proof.
  intros Hw. cbv zeta.
  pose proof (session_after_ok evs) as Hok.
  unfold features, tower_id, latitude, longitude, signal_strength, male_count,
    female_count, crowd_density, hour, day_of_week, month, is_weekend.
  rewrite !(reentered_value (session_after evs) w) by
    first [exact Hok | exact Hw | (simpl; auto 12)].
  reflexivity.
Qed.

Lemma reentering_keeps_features_witness :
  let ss := session_after [Enter "Latitude" (PFloat 12.5%float)] in
  In w_latitude widgets /\
  features (enter ss "Latitude" (PFloat 12.5%float)) = features ss.
Proof.
  cbv zeta.
  assert (Hw : In w_latitude widgets) by (simpl; auto 12).
  split; [exact Hw|].
  exact (reentering_keeps_features [Enter "Latitude" (PFloat 12.5%float)]
           w_latitude Hw).
Defined.

(** ** Predictions over a process *)

(** X8: over a model file that deserialises, a process calls [predict]
    once for every press of the button and never otherwise: the number of
    calls of [predict] in all its runs is the number of presses in the
    history, whatever the entries in between. *)
Theorem one_prediction_per_press unpickle fs content m evs :
  fs !! model_path = Some content ->
  unpickle content = inr m ->
  count_predicts (process unpickle fs evs) = length (List.filter is_press evs).
Proof.
  intros Hfs Hun. unfold process. cbv zeta.
  rewrite run_keeps_files, count_predicts_cons.
  rewrite (serve_count_predicts _ _ _ _ _ Hfs Hun).
  rewrite (predicts_of_run _ _ _ _ _ _ Hfs Hun).
  destruct (decide (None = the_button)); [discriminate|reflexivity].
Qed.

Lemma one_prediction_per_press_witness :
  let evs := [ Enter "Hour" (PInt 7); Click "Make Prediction";
               Enter "Hour" (PInt 99); Click "Other";
               Click "Make Prediction" ] in
  demo_fs !! model_path = Some [Byte.x80; Byte.x04] /\
  count_predicts (process demo_unpickle demo_fs evs) = 2%nat.
Proof.
  cbv zeta.
  assert (Hfs : demo_fs !! model_path = Some [Byte.x80; Byte.x04])
    by (vm_compute; reflexivity).
  split; [exact Hfs|].
  exact (one_prediction_per_press demo_unpickle demo_fs _ _
           [ Enter "Hour" (PInt 7); Click "Make Prediction";
             Enter "Hour" (PInt 99); Click "Other";
             Click "Make Prediction" ] Hfs eq_refl).
Defined.
